(** * The task handle of the containerd task driver (containerd/handle.go)

    A shallow embedding of [taskHandle] and its seven methods, and the
    properties of the lifecycle protocol they implement.

    The methods drive an external container runtime (containerd.Task and
    containerd.Container are Go interfaces) and the Go runtime itself
    (time.Sleep, the handle's RWMutex, the logger).  They are embedded in a
    small monad that threads three things: the handle's fields, the state of
    the outside world, and a journal of every call that left the handle,
    stamped with the time at which it was issued and carrying the answer the
    world gave.  A failed run-time check (nil dereference, failed type
    assertion) is a panic, which is an outcome of its own and not an [error]
    value.

    The model is one goroutine: a mutex acquisition always returns, and what
    other goroutines do meanwhile is part of the world's own transition. *)

From Stdlib Require Import ZArith List String Bool Lia.
Import ListNotations.

Local Open Scope string_scope.
Local Open Scope list_scope.
Local Open Scope Z_scope.

(** ** Go values used by the handle *)

(** A Go [error]: nil, or an error carrying its message. *)
Definition error := option string.

Definition error_is_nil (e : error) : bool :=
  match e with None => true | Some _ => false end.

(** time.Duration is an int64 count of nanoseconds. *)
Definition Duration := Z.
Definition Nanosecond : Duration := 1.
Definition Microsecond : Duration := 1000 * Nanosecond.
Definition Millisecond : Duration := 1000 * Microsecond.
Definition Second : Duration := 1000 * Millisecond.

(** time.Time as nanoseconds since the zero instant. *)
Definition Time := Z.

(** syscall.Signal is an int. *)
Definition syscall_Signal := Z.
Definition SIGINT : syscall_Signal := 2.
Definition SIGKILL : syscall_Signal := 9.
Definition SIGTERM : syscall_Signal := 15.

(** A value of the interface os.Signal: the nil interface, a syscall.Signal,
    or a value of any other type implementing String() and Signal(). *)
Inductive os_Signal : Type :=
| os_Signal_nil
| os_Signal_syscall (n : syscall_Signal)
| os_Signal_other (dynamic_type : string) (text : string).

(** What [sig.(syscall.Signal)] finds in the interface value. *)
Definition as_syscall_Signal (sig : os_Signal) : option syscall_Signal :=
  match sig with
  | os_Signal_syscall n => Some n
  | _ => None
  end.

(** containerd.ProcessStatus and containerd.Status, declared by the runtime
    client library.  The handle only compares with [Running]. *)
Inductive ProcessStatus : Type :=
| Running | Created | Stopped | Paused | Pausing | Unknown.

Definition ProcessStatus_eqb (a b : ProcessStatus) : bool :=
  match a, b with
  | Running, Running | Created, Created | Stopped, Stopped
  | Paused, Paused | Pausing, Pausing | Unknown, Unknown => true
  | _, _ => false
  end.

Record Status : Type := mkStatus {
  Status_Status : ProcessStatus;
  Status_ExitStatus : Z;
  Status_ExitTime : Time
}.

(** The exit information task.Delete returns next to its error. *)
Record ExitStatus : Type := mkExitStatus {
  ExitStatus_code : Z;
  ExitStatus_exitedAt : Time
}.

(** Options of container.Delete; the handle passes WithSnapshotCleanup. *)
Inductive DeleteOpts : Type :=
| WithSnapshotCleanup.

(** drivers.TaskState.
    Modelled from the spec: the declaration of drivers.TaskState is not in
    handle.go; the data model lists its values as Pending, Running, Exited. *)
Inductive TaskState : Type :=
| TaskStatePending | TaskStateRunning | TaskStateExited.

Definition TaskState_eqb (a b : TaskState) : bool :=
  match a, b with
  | TaskStatePending, TaskStatePending
  | TaskStateRunning, TaskStateRunning
  | TaskStateExited, TaskStateExited => true
  | _, _ => false
  end.

Record TaskConfig : Type := mkTaskConfig {
  TaskConfig_ID : string;
  TaskConfig_Name : string
}.

Record ExitResult : Type := mkExitResult {
  ExitResult_ExitCode : Z;
  ExitResult_Signal : Z;
  ExitResult_OOMKilled : bool;
  ExitResult_Err : error
}.

(** drivers.TaskStatus, the snapshot [TaskStatus()] returns.  The
    DriverAttributes map is built from a literal and kept as its entries. *)
Record TaskStatus_t : Type := mkTaskStatus {
  TS_ID : string;
  TS_Name : string;
  TS_State : TaskState;
  TS_StartedAt : Time;
  TS_CompletedAt : Time;
  TS_ExitResult : option ExitResult;
  TS_DriverAttributes : list (string * string)
}.

(** A receive-only channel value: nil, or a reference to a channel. *)
Inductive chan (A : Type) : Type :=
| chan_nil
| chan_ref (addr : nat).
Arguments chan_nil {A}.
Arguments chan_ref {A} addr.

(** One non-blocking receive attempt, given the buffered contents of every
    allocated channel.  A nil channel is never ready. *)
Definition chan_poll {A : Type} (buffers : nat -> list A) (c : chan A) : option A :=
  match c with
  | chan_nil => None
  | chan_ref a => hd_error (buffers a)
  end.

Record TaskResourceUsage : Type := mkTaskResourceUsage {
  TRU_Timestamp : Z
}.

(** ** The outside world

    The collaborators of the handle, as an interface: the opaque types the
    handle holds capabilities of, and, for every call that leaves the handle,
    the answer of the world and the world after the call. *)
Class Runtime : Type := {
  context_Context : Type;
  Logger : Type;
  Container : Type;
  Task : Type;
  World : Type;
  (** the wall clock *)
  now : World -> Time;
  (** time.Sleep(d): the world moves on while the goroutine sleeps *)
  time_Sleep : Duration -> World -> World;
  (** blocking until the handle's stateLock is granted *)
  stateLock_wait : World -> World;
  (** containerd.Task *)
  Task_Start : Task -> context_Context -> World -> error * World;
  Task_Kill : Task -> context_Context -> syscall_Signal -> World -> error * World;
  Task_Status : Task -> context_Context -> World -> (Status * error) * World;
  Task_Delete : Task -> context_Context -> World -> (option ExitStatus * error) * World;
  (** containerd.Container *)
  Container_Delete : Container -> context_Context -> list DeleteOpts -> World -> error * World
}.

(** What the clock of a world has to satisfy: time.Sleep(d) returns no
    earlier than d after it was called, and waiting for a lock does not turn
    the clock back. *)
Class ClockLaws (R : Runtime) : Prop := {
  Sleep_elapses : forall d w, now w + Z.max 0 d <= now (time_Sleep d w);
  stateLock_wait_monotone : forall w, now w <= now (stateLock_wait w)
}.

(** How a call ends: by returning, or by a run-time panic. *)
Inductive outcome (A : Type) : Type :=
| Returned (a : A)
| Panicked (msg : string).
Arguments Returned {A} a.
Arguments Panicked {A} msg.

Section Handle.

Context {R : Runtime}.

(** ** The handle *)

(** The fields of [taskHandle].  The mutex [stateLock] has no data of its
    own here: its acquisitions and releases are journal entries.  The
    logger and the two capabilities are interface values taken to be
    non-nil; [taskConfig] is a pointer and may be nil. *)
Record taskHandle : Type := mkTaskHandle {
  logger : Logger;
  taskConfig : option TaskConfig;
  procState : TaskState;
  startedAt : Time;
  completedAt : Time;
  exitResult : option ExitResult;
  containerName : string;
  container : Container;
  task : Task
}.

(** A call that left the handle, with the answer it got. *)
Inductive Call : Type :=
| CLock
| CUnlock
| CRLock
| CRUnlock
| CSleep (d : Duration)
| CLogInfo (l : Logger) (msg : string)
| CStart (t : Task) (ctx : context_Context) (r : error)
| CKill (t : Task) (ctx : context_Context) (sig : syscall_Signal) (r : error)
| CStatus (t : Task) (ctx : context_Context) (st : Status) (r : error)
| CTaskDelete (t : Task) (ctx : context_Context) (es : option ExitStatus) (r : error)
| CContainerDelete (c : Container) (ctx : context_Context) (opts : list DeleteOpts) (r : error).

(** A journal entry: when the call was issued, and the call. *)
Definition Entry : Type := Time * Call.

Record State : Type := mkState {
  handle : taskHandle;
  world : World;
  journal : list Entry
}.

Definition calls (s : State) : list Call := map snd (journal s).

(** ** The monad: state, and panics *)

Definition M (A : Type) : Type := State -> outcome A * State.

Definition ret {A : Type} (a : A) : M A := fun s => (Returned a, s).

Definition bind {A B : Type} (m : M A) (k : A -> M B) : M B :=
  fun s =>
    match m s with
    | (Returned a, s') => k a s'
    | (Panicked msg, s') => (Panicked msg, s')
    end.

Definition panic {A : Type} (msg : string) : M A := fun s => (Panicked msg, s).

(** [defer d] followed by [body]: [d] runs when [body] is left, by return or
    by panic. *)
Definition with_defer {A : Type} (d : M unit) (body : M A) : M A :=
  fun s =>
    match body s with
    | (o, s1) =>
        match d s1 with
        | (Returned _, s2) => (o, s2)
        | (Panicked msg, s2) => (Panicked msg, s2)
        end
    end.

Definition get_handle : M taskHandle := fun s => (Returned (handle s), s).

(** A call to the world: the entry is stamped with the clock at the time of
    the call and records the answer. *)
Definition call_world {A : Type} (f : World -> A * World) (entry : A -> Call) : M A :=
  fun s =>
    let (a, w') := f (world s) in
    (Returned a,
     {| handle := handle s;
        world := w';
        journal := journal s ++ [(now (world s), entry a)] |}).

(** An entry for something that does not wait for the world. *)
Definition note (c : Call) : M unit :=
  call_world (fun w => (tt, w)) (fun _ => c).

End Handle.

Declare Scope go_scope.
Delimit Scope go_scope with go.
Notation "x <- m ;; k" := (bind m (fun x => k))
  (at level 61, m at next level, right associativity) : go_scope.
Notation "m ;; k" := (bind m (fun _ => k))
  (at level 61, right associativity) : go_scope.
Notation "' pat <- m ;; k" := (bind m (fun x => match x with pat => k end))
  (at level 61, pat pattern, m at next level, right associativity) : go_scope.

Section Methods.

Context {R : Runtime}.
Local Open Scope go_scope.

(** ** Primitives *)

Definition stateLock_Lock : M unit :=
  call_world (fun w => (tt, stateLock_wait w)) (fun _ => CLock).
Definition stateLock_Unlock : M unit := note CUnlock.
Definition stateLock_RLock : M unit :=
  call_world (fun w => (tt, stateLock_wait w)) (fun _ => CRLock).
Definition stateLock_RUnlock : M unit := note CRUnlock.

Definition Sleep (d : Duration) : M unit :=
  call_world (fun w => (tt, time_Sleep d w)) (fun _ => CSleep d).

Definition logger_Info (msg : string) : M unit :=
  h <- get_handle ;; note (CLogInfo (logger h) msg).

Definition task_Start (ctx : context_Context) : M error :=
  h <- get_handle ;;
  call_world (Task_Start (task h) ctx) (CStart (task h) ctx).

Definition task_Kill (ctx : context_Context) (sig : syscall_Signal) : M error :=
  h <- get_handle ;;
  call_world (Task_Kill (task h) ctx sig) (CKill (task h) ctx sig).

Definition task_Status (ctx : context_Context) : M (Status * error) :=
  h <- get_handle ;;
  call_world (Task_Status (task h) ctx)
             (fun a => CStatus (task h) ctx (fst a) (snd a)).

Definition task_Delete (ctx : context_Context) : M (option ExitStatus * error) :=
  h <- get_handle ;;
  call_world (Task_Delete (task h) ctx)
             (fun a => CTaskDelete (task h) ctx (fst a) (snd a)).

Definition container_Delete (ctx : context_Context) (opts : list DeleteOpts) : M error :=
  h <- get_handle ;;
  call_world (Container_Delete (container h) ctx opts)
             (CContainerDelete (container h) ctx opts).

(** Dereferencing the [*drivers.TaskConfig] of the handle. *)
Definition deref_taskConfig : M TaskConfig :=
  h <- get_handle ;;
  match taskConfig h with
  | Some cfg => ret cfg
  | None => panic "invalid memory address or nil pointer dereference"
  end.

(** The single-result type assertion [sig.(syscall.Signal)]. *)
Definition assert_syscall_Signal (sig : os_Signal) : M syscall_Signal :=
  match as_syscall_Signal sig with
  | Some n => ret n
  | None => panic "interface conversion: os.Signal is not syscall.Signal"
  end.

(** ** The methods of taskHandle *)

Definition TaskStatus : M TaskStatus_t :=
  stateLock_RLock ;;
  with_defer stateLock_RUnlock
    (cfg <- deref_taskConfig ;;
     h <- get_handle ;;
     ret {| TS_ID := TaskConfig_ID cfg;
            TS_Name := TaskConfig_Name cfg;
            TS_State := procState h;
            TS_StartedAt := startedAt h;
            TS_CompletedAt := completedAt h;
            TS_ExitResult := exitResult h;
            TS_DriverAttributes := [("containerName", containerName h)] |}).

Definition IsRunning : M bool :=
  stateLock_RLock ;;
  with_defer stateLock_RUnlock
    (h <- get_handle ;;
     ret (TaskState_eqb (procState h) TaskStateRunning)).

(** The delay [run] puts before the start call. *)
Definition startup_grace : Duration := 5 * Second.

Definition run (ctxContainerd : context_Context) : M unit :=
  stateLock_Lock ;;
  with_defer stateLock_Unlock
    (Sleep startup_grace ;;
     _ <- task_Start ctxContainerd ;;
     ret tt).

Definition shutdown (ctxContainerd : context_Context) (timeout : Duration)
    (signal : syscall_Signal) : M error :=
  err <- task_Kill ctxContainerd signal ;;
  if negb (error_is_nil err) then ret err else
  Sleep timeout ;;
  '(status, err) <- task_Status ctxContainerd ;;
  if negb (error_is_nil err) then ret err else
  if negb (ProcessStatus_eqb (Status_Status status) Running) then
    logger_Info "Task is not running anymore, no need to SIGKILL" ;;
    ret None
  else
  task_Kill ctxContainerd SIGKILL.

Definition cleanup (ctxContainerd : context_Context) : M error :=
  '(_, err) <- task_Delete ctxContainerd ;;
  if negb (error_is_nil err) then ret err else
  err <- container_Delete ctxContainerd [WithSnapshotCleanup] ;;
  if negb (error_is_nil err) then ret err else
  ret None.

Definition stats (ctx : context_Context) (interval : Duration)
  : M (chan TaskResourceUsage * error) :=
  ret (chan_nil, None).

Definition signal (ctxContainerd : context_Context) (sig : os_Signal) : M error :=
  s <- assert_syscall_Signal sig ;;
  task_Kill ctxContainerd s.

End Methods.

(** ** A scripted runtime

    A test double for the outside world: one task that is alive or not, may
    trap every signal but SIGKILL, and answers with scripted errors.  Every
    call to the runtime takes a millisecond of its clock. *)
Module Fake.

Record env : Type := mkEnv {
  clock : Time;
  alive : bool;
  traps_signals : bool;
  start_err : error;
  kill_errs : list error;
  status_err : error;
  task_delete_err : error;
  container_delete_err : error
}.

Definition tick (w : env) : env :=
  {| clock := clock w + Millisecond;
     alive := alive w;
     traps_signals := traps_signals w;
     start_err := start_err w;
     kill_errs := kill_errs w;
     status_err := status_err w;
     task_delete_err := task_delete_err w;
     container_delete_err := container_delete_err w |}.

Definition set_alive (b : bool) (w : env) : env :=
  {| clock := clock w;
     alive := b;
     traps_signals := traps_signals w;
     start_err := start_err w;
     kill_errs := kill_errs w;
     status_err := status_err w;
     task_delete_err := task_delete_err w;
     container_delete_err := container_delete_err w |}.

Definition pop_kill_err (w : env) : error * env :=
  (hd None (kill_errs w),
   {| clock := clock w;
      alive := alive w;
      traps_signals := traps_signals w;
      start_err := start_err w;
      kill_errs := tl (kill_errs w);
      status_err := status_err w;
      task_delete_err := task_delete_err w;
      container_delete_err := container_delete_err w |}).

Definition sleep (d : Duration) (w : env) : env :=
  {| clock := clock w + Z.max 0 d;
     alive := alive w;
     traps_signals := traps_signals w;
     start_err := start_err w;
     kill_errs := kill_errs w;
     status_err := status_err w;
     task_delete_err := task_delete_err w;
     container_delete_err := container_delete_err w |}.

Definition start (t : string) (ctx : unit) (w : env) : error * env :=
  match start_err w with
  | Some e => (Some e, tick w)
  | None => (None, tick (set_alive true w))
  end.

Definition kill (t : string) (ctx : unit) (sig : syscall_Signal) (w : env)
  : error * env :=
  match pop_kill_err w with
  | (Some e, w') => (Some e, tick w')
  | (None, w') =>
      if (sig =? SIGKILL) || negb (traps_signals w')
      then (None, tick (set_alive false w'))
      else (None, tick w')
  end.

Definition status (t : string) (ctx : unit) (w : env)
  : (Status * error) * env :=
  match status_err w with
  | Some e => ((mkStatus Unknown 0 0, Some e), tick w)
  | None =>
      ((mkStatus (if alive w then Running else Stopped) 0 0, None), tick w)
  end.

Definition task_delete (t : string) (ctx : unit) (w : env)
  : (option ExitStatus * error) * env :=
  match task_delete_err w with
  | Some e => ((None, Some e), tick w)
  | None => ((Some (mkExitStatus 0 (clock w)), None), tick (set_alive false w))
  end.

Definition container_delete (c : string) (ctx : unit) (opts : list DeleteOpts)
    (w : env) : error * env :=
  (container_delete_err w, tick w).

#[export] Instance runtime : Runtime := {|
  context_Context := unit;
  Logger := unit;
  Container := string;
  Task := string;
  World := env;
  now := clock;
  time_Sleep := sleep;
  stateLock_wait := fun w => w;
  Task_Start := start;
  Task_Kill := kill;
  Task_Status := status;
  Task_Delete := task_delete;
  Container_Delete := container_delete
|}.

(** A running task that exits on the first signal, in a runtime where every
    call succeeds. *)
Definition calm : env :=
  {| clock := 1000 * Second;
     alive := true;
     traps_signals := false;
     start_err := None;
     kill_errs := [];
     status_err := None;
     task_delete_err := None;
     container_delete_err := None |}.

(** The same task, trapping every signal it can. *)
Definition stubborn : env :=
  {| clock := 1000 * Second;
     alive := true;
     traps_signals := true;
     start_err := None;
     kill_errs := [];
     status_err := None;
     task_delete_err := None;
     container_delete_err := None |}.

Definition redis : taskHandle :=
  {| logger := tt;
     taskConfig := Some (mkTaskConfig "task-1" "redis");
     procState := TaskStateRunning;
     startedAt := 990 * Second;
     completedAt := 0;
     exitResult := None;
     containerName := "redis-task-1";
     container := "redis-task-1";
     task := "redis-task-1" |}.

Definition fresh (w : env) : State :=
  {| handle := redis; world := w; journal := [] |}.

(** Scripts in which one call of the runtime fails. *)
Definition with_errors (start kill1 status task_delete container_delete : error)
  : env :=
  {| clock := 1000 * Second;
     alive := true;
     traps_signals := true;
     start_err := start;
     kill_errs := [kill1];
     status_err := status;
     task_delete_err := task_delete;
     container_delete_err := container_delete |}.

Definition start_refused : env :=
  with_errors (Some "task already started") None None None None.
Definition kill_refused : env :=
  with_errors None (Some "no such process") None None None.
Definition status_unavailable : env :=
  with_errors None None (Some "ttrpc: closed") None None.
Definition task_delete_refused : env :=
  with_errors None None None (Some "task must be stopped before deletion") None.
Definition snapshot_busy : env :=
  with_errors None None None None (Some "snapshot is busy").



(** A signal value of a type of its own. *)
Definition custom_signal : os_Signal := os_Signal_other "main.customSignal" "custom".

End Fake.

(** ** Vocabulary of the properties *)

Section Vocabulary.

Context {R : Runtime}.

(** The calls made between two states, in the order they were made. *)
Definition issued (s s' : State) (l : list Call) : Prop :=
  calls s' = calls s ++ l.

(** The journal entries added between two states. *)
Definition new_entries (s s' : State) : list Entry :=
  skipn (List.length (journal s)) (journal s').

Definition is_forceful_kill (c : Call) : bool :=
  match c with
  | CKill _ _ sig _ => sig =? SIGKILL
  | _ => false
  end.

Definition is_start (c : Call) : bool :=
  match c with
  | CStart _ _ _ => true
  | _ => false
  end.

Definition count_calls (p : Call -> bool) (l : list Call) : nat :=
  List.length (filter p l).

(** A method leaves every field of the handle as it found it. *)
Definition keeps_handle {A : Type} (m : M A) : Prop :=
  forall s, handle (snd (m s)) = handle s.



(** The entry points the lifecycle driver has. *)
Inductive Op : Type :=
| OpTaskStatus
| OpIsRunning
| OpRun (ctx : context_Context)
| OpShutdown (ctx : context_Context) (timeout : Duration) (sig : syscall_Signal)
| OpCleanup (ctx : context_Context)
| OpStats (ctx : context_Context) (interval : Duration)
| OpSignal (ctx : context_Context) (sig : os_Signal).

(** The state an operation leaves behind, whether it returned or panicked. *)
Definition perform (o : Op) (s : State) : State :=
  match o with
  | OpTaskStatus => snd (TaskStatus s)
  | OpIsRunning => snd (IsRunning s)
  | OpRun ctx => snd (run ctx s)
  | OpShutdown ctx timeout sig => snd (shutdown ctx timeout sig s)
  | OpCleanup ctx => snd (cleanup ctx s)
  | OpStats ctx interval => snd (stats ctx interval s)
  | OpSignal ctx sig => snd (signal ctx sig s)
  end.

Inductive reachable (s0 : State) : State -> Prop :=
| reach_here : reachable s0 s0
| reach_step : forall s o, reachable s0 s -> reachable s0 (perform o s).

(** The state after one more call: the world it left, and its entry in the
    journal. *)
Definition logged (s : State) (w : World) (c : Call) : State :=
  {| handle := handle s;
     world := w;
     journal := journal s ++ [(now (world s), c)] |}.

(** [shutdown] entered in [s]: the state after the initial delivery answered
    [e] and left the world [w1]; after the wait that follows a successful
    delivery; and after the status query answered [(st, e)] and left [w3]. *)
Definition signalled (ctx : context_Context) (sig : syscall_Signal) (s : State)
    (e : error) (w1 : World) : State :=
  logged s w1 (CKill (task (handle s)) ctx sig e).

Definition waited (ctx : context_Context) (timeout : Duration)
    (sig : syscall_Signal) (s : State) (w1 : World) : State :=
  logged (signalled ctx sig s None w1) (time_Sleep timeout w1) (CSleep timeout).

Definition queried (ctx : context_Context) (timeout : Duration)
    (sig : syscall_Signal) (s : State) (w1 : World) (st : Status) (e : error)
    (w3 : World) : State :=
  logged (waited ctx timeout sig s w1) w3 (CStatus (task (handle s)) ctx st e).

(** [run] entered in [s]: the state once the lock is granted, and once the
    delay has passed. *)
Definition locked (s : State) : State :=
  logged s (stateLock_wait (world s)) CLock.

Definition rested (s : State) : State :=
  logged (locked s) (time_Sleep startup_grace (world (locked s)))
    (CSleep startup_grace).

(** What the world answers to the start call of [run] entered in [s]: the
    call is made once the lock is granted and the delay has passed. *)
Definition start_answer (ctx : context_Context) (s : State) : error :=
  fst (Task_Start (task (handle s)) ctx (world (rested s))).

(** What the caller of [run] has in hand when it is over: how the call
    ended, and the handle. *)
Definition caller_view (ctx : context_Context) (s : State)
  : outcome unit * taskHandle :=
  (fst (run ctx s), handle (snd (run ctx s))).

(** [run] would surface the start failure if the caller could read the
    answer of the start call off what it has in hand. *)
Definition run_surfaces_start_error : Prop :=
  exists surface : outcome unit * taskHandle -> error,
    forall ctx s, surface (caller_view ctx s) = start_answer ctx s.

(** [signal] would reject a signal with an error if it returned a non-nil
    error and left the journal alone. *)
Definition signal_rejects_with_error (ctx : context_Context) (sig : os_Signal)
    (s : State) : Prop :=
  (exists e, fst (signal ctx sig s) = Returned (Some e)) /\
  issued s (snd (signal ctx sig s)) [].

End Vocabulary.

(** ** Kinds of calls, locks held, and a clock the runtime respects *)

(** The runtime calls take time, or none: they do not turn the clock back. *)
Class MonotoneRuntime (R : Runtime) : Prop := {
  Task_Start_clock : forall t ctx w, now w <= now (snd (Task_Start t ctx w));
  Task_Kill_clock : forall t ctx sig w, now w <= now (snd (Task_Kill t ctx sig w));
  Task_Status_clock : forall t ctx w, now w <= now (snd (Task_Status t ctx w))
}.

Section Kinds.

Context {R : Runtime}.

Definition is_lock_call (c : Call) : bool :=
  match c with
  | CLock | CUnlock | CRLock | CRUnlock => true
  | _ => false
  end.

Definition is_kill (c : Call) : bool :=
  match c with
  | CKill _ _ _ _ => true
  | _ => false
  end.

Definition is_delete (c : Call) : bool :=
  match c with
  | CTaskDelete _ _ _ _ | CContainerDelete _ _ _ _ => true
  | _ => false
  end.

(** What a call does to the number of times the goroutine holds the
    stateLock, exclusively and shared. *)
Definition write_lock_effect (c : Call) : Z :=
  match c with
  | CLock => 1
  | CUnlock => -1
  | _ => 0
  end.

Definition read_lock_effect (c : Call) : Z :=
  match c with
  | CRLock => 1
  | CRUnlock => -1
  | _ => 0
  end.

Definition held (effect : Call -> Z) (l : list Call) : Z :=
  fold_right (fun c n => effect c + n) 0 l.

(** How the goroutine holds the stateLock. *)
Inductive lock_mode : Type :=
| Unheld
| HeldExclusive
| HeldShared.

(** The lock protocol, call by call: a lock is acquired only when none is
    held and released only in the mode it is held in; any other lock call
    breaks the protocol.  Calls that are no lock calls leave the mode. *)
Definition lock_step (m : lock_mode) (c : Call) : option lock_mode :=
  match c, m with
  | CLock, Unheld => Some HeldExclusive
  | CUnlock, HeldExclusive => Some Unheld
  | CRLock, Unheld => Some HeldShared
  | CRUnlock, HeldShared => Some Unheld
  | (CLock | CUnlock | CRLock | CRUnlock), _ => None
  | _, _ => Some m
  end.

Fixpoint lock_walk (m : lock_mode) (l : list Call) : option lock_mode :=
  match l with
  | [] => Some m
  | c :: l' =>
      match lock_step m c with
      | Some m' => lock_walk m' l'
      | None => None
      end
  end.


(** Reading a key of a map[string]string kept as its entries. *)
Definition lookup_attr (k : string) (m : list (string * string)) : option string :=
  match find (fun kv => String.eqb (fst kv) k) m with
  | Some kv => Some (snd kv)
  | None => None
  end.

End Kinds.

(** ** A runtime that forgets what it deleted

    A second test double: a task can be deleted once, after which the
    runtime answers every call on it with a not-found error; the container
    deletion fails while its snapshot is busy. *)
Module Strict.

Record env : Type := mkEnv {
  clock : Time;
  task_present : bool;
  task_running : bool;
  snapshot_busy : bool
}.

Definition not_found : error := Some "task not found".

Definition start (t : string) (ctx : unit) (w : env) : error * env :=
  if task_present w
  then (None, mkEnv (clock w + Millisecond) true true (snapshot_busy w))
  else (not_found, w).

Definition kill (t : string) (ctx : unit) (sig : syscall_Signal) (w : env)
  : error * env :=
  if task_present w
  then (None, mkEnv (clock w + Millisecond) true false (snapshot_busy w))
  else (not_found, w).

Definition status (t : string) (ctx : unit) (w : env) : (Status * error) * env :=
  if task_present w
  then ((mkStatus (if task_running w then Running else Stopped) 0 0, None), w)
  else ((mkStatus Unknown 0 0, not_found), w).

Definition task_delete (t : string) (ctx : unit) (w : env)
  : (option ExitStatus * error) * env :=
  if task_present w
  then ((Some (mkExitStatus 0 (clock w)), None),
        mkEnv (clock w + Millisecond) false false (snapshot_busy w))
  else ((None, not_found), w).

Definition container_delete (c : string) (ctx : unit) (opts : list DeleteOpts)
    (w : env) : error * env :=
  if snapshot_busy w
  then (Some "snapshot is busy", w)
  else (None, mkEnv (clock w + Millisecond) (task_present w) (task_running w) false).

#[export] Instance runtime : Runtime := {|
  context_Context := unit;
  Logger := unit;
  Container := string;
  Task := string;
  World := env;
  now := clock;
  time_Sleep := fun d w =>
    mkEnv (clock w + Z.max 0 d) (task_present w) (task_running w) (snapshot_busy w);
  stateLock_wait := fun w => w;
  Task_Start := start;
  Task_Kill := kill;
  Task_Status := status;
  Task_Delete := task_delete;
  Container_Delete := container_delete
|}.

(** A stopped task whose snapshot is still busy. *)
Definition busy : env := mkEnv (1000 * Second) true false true.

Definition redis : taskHandle :=
  {| logger := tt;
     taskConfig := Some (mkTaskConfig "task-1" "redis");
     procState := TaskStateRunning;
     startedAt := 990 * Second;
     completedAt := 0;
     exitResult := None;
     containerName := "redis-task-1";
     container := "redis-task-1";
     task := "redis-task-1" |}.

(** A handle that was given no task configuration. *)
Definition unconfigured : taskHandle :=
  {| logger := tt;
     taskConfig := None;
     procState := TaskStatePending;
     startedAt := 0;
     completedAt := 0;
     exitResult := None;
     containerName := "";
     container := "c0";
     task := "t0" |}.

End Strict.

(** ** Running the monad *)

Section Execution.

Context {R : Runtime}.
Local Open Scope go_scope.

Lemma bind_returned {A B : Type} (m : M A) (k : A -> M B) s a s' :
  m s = (Returned a, s') -> bind m k s = k a s'.
Proof. intros E. unfold bind. rewrite E. reflexivity. Qed.

Lemma call_world_eq {A : Type} (f : World -> A * World) (entry : A -> Call) s a w :
  f (world s) = (a, w) ->
  call_world f entry s = (Returned a, logged s w (entry a)).
Proof. intros E. unfold call_world. rewrite E. reflexivity. Qed.

Lemma task_Kill_eq ctx sig s r w :
  Task_Kill (task (handle s)) ctx sig (world s) = (r, w) ->
  task_Kill ctx sig s = (Returned r, logged s w (CKill (task (handle s)) ctx sig r)).
Proof. intros E. unfold task_Kill, bind, get_handle. now apply call_world_eq. Qed.

Lemma task_Start_eq ctx s r w :
  Task_Start (task (handle s)) ctx (world s) = (r, w) ->
  task_Start ctx s = (Returned r, logged s w (CStart (task (handle s)) ctx r)).
Proof. intros E. unfold task_Start, bind, get_handle. now apply call_world_eq. Qed.

Lemma task_Status_eq ctx s st r w :
  Task_Status (task (handle s)) ctx (world s) = ((st, r), w) ->
  task_Status ctx s
  = (Returned (st, r), logged s w (CStatus (task (handle s)) ctx st r)).
Proof.
  intros E. unfold task_Status, bind, get_handle.
  now rewrite (call_world_eq _ _ _ _ _ E).
Qed.

Lemma task_Delete_eq ctx s es r w :
  Task_Delete (task (handle s)) ctx (world s) = ((es, r), w) ->
  task_Delete ctx s
  = (Returned (es, r), logged s w (CTaskDelete (task (handle s)) ctx es r)).
Proof.
  intros E. unfold task_Delete, bind, get_handle.
  now rewrite (call_world_eq _ _ _ _ _ E).
Qed.

Lemma container_Delete_eq ctx opts s r w :
  Container_Delete (container (handle s)) ctx opts (world s) = (r, w) ->
  container_Delete ctx opts s
  = (Returned r, logged s w (CContainerDelete (container (handle s)) ctx opts r)).
Proof.
  intros E. unfold container_Delete, bind, get_handle. now apply call_world_eq.
Qed.

Lemma Sleep_eq d s :
  Sleep d s = (Returned tt, logged s (time_Sleep d (world s)) (CSleep d)).
Proof. reflexivity. Qed.

Lemma stateLock_Lock_eq s :
  stateLock_Lock s = (Returned tt, logged s (stateLock_wait (world s)) CLock).
Proof. reflexivity. Qed.

Lemma calls_logged s w c : calls (logged s w c) = calls s ++ [c].
Proof. unfold calls, logged. simpl. now rewrite map_app. Qed.

Lemma issued_refl s : issued s s [].
Proof. unfold issued. now rewrite app_nil_r. Qed.

Lemma issued_logged s s' l w c :
  issued s s' l -> issued s (logged s' w c) (l ++ [c]).
Proof.
  unfold issued. intros E. now rewrite calls_logged, E, app_assoc.
Qed.

Lemma new_entries_app s s' l :
  journal s' = journal s ++ l -> new_entries s s' = l.
Proof.
  intros E. unfold new_entries. rewrite E.
  rewrite skipn_app, skipn_all, Nat.sub_diag. reflexivity.
Qed.

End Execution.

(** ** The four ways through [shutdown] *)

Section ShutdownPaths.

Context {R : Runtime}.
Variables (ctx : context_Context) (timeout : Duration) (sig : syscall_Signal).
Variable s : State.

Let t := task (handle s).

Local Abbreviation signalled := (signalled ctx sig s).
Local Abbreviation waited := (waited ctx timeout sig s).
Local Abbreviation queried := (queried ctx timeout sig s).

Lemma shutdown_signal_failed e w1 :
  Task_Kill t ctx sig (world s) = (Some e, w1) ->
  shutdown ctx timeout sig s = (Returned (Some e), signalled (Some e) w1).
Proof.
  intros K. unfold shutdown.
  erewrite bind_returned by (apply task_Kill_eq; exact K).
  reflexivity.
Qed.

Lemma shutdown_status_failed w1 st e w3 :
  Task_Kill t ctx sig (world s) = (None, w1) ->
  Task_Status t ctx (time_Sleep timeout w1) = ((st, Some e), w3) ->
  shutdown ctx timeout sig s = (Returned (Some e), queried w1 st (Some e) w3).
Proof.
  intros K Q. unfold shutdown.
  erewrite bind_returned by (apply task_Kill_eq; exact K).
  cbn [error_is_nil negb].
  erewrite bind_returned by apply Sleep_eq.
  erewrite bind_returned by (apply task_Status_eq; exact Q).
  reflexivity.
Qed.

Lemma shutdown_not_running w1 st w3 :
  Task_Kill t ctx sig (world s) = (None, w1) ->
  Task_Status t ctx (time_Sleep timeout w1) = ((st, None), w3) ->
  Status_Status st <> Running ->
  shutdown ctx timeout sig s
  = (Returned None,
     logged (queried w1 st None w3) w3
       (CLogInfo (logger (handle s))
          "Task is not running anymore, no need to SIGKILL")).
Proof.
  intros K Q N. unfold shutdown.
  erewrite bind_returned by (apply task_Kill_eq; exact K).
  cbn [error_is_nil negb].
  erewrite bind_returned by apply Sleep_eq.
  erewrite bind_returned by (apply task_Status_eq; exact Q).
  cbn [error_is_nil negb].
  destruct (Status_Status st); try contradiction; reflexivity.
Qed.

Lemma shutdown_escalated w1 st w3 r w4 :
  Task_Kill t ctx sig (world s) = (None, w1) ->
  Task_Status t ctx (time_Sleep timeout w1) = ((st, None), w3) ->
  Status_Status st = Running ->
  Task_Kill t ctx SIGKILL w3 = (r, w4) ->
  shutdown ctx timeout sig s
  = (Returned r, logged (queried w1 st None w3) w4 (CKill t ctx SIGKILL r)).
Proof.
  intros K Q N K2. unfold shutdown.
  erewrite bind_returned by (apply task_Kill_eq; exact K).
  cbn [error_is_nil negb].
  erewrite bind_returned by apply Sleep_eq.
  erewrite bind_returned by (apply task_Status_eq; exact Q).
  cbn [error_is_nil negb]. rewrite N. cbn [ProcessStatus_eqb negb].
  exact (task_Kill_eq ctx SIGKILL (queried w1 st None w3) _ _ K2).
Qed.

Lemma issued_signalled e w1 : issued s (signalled e w1) [CKill t ctx sig e].
Proof. apply (issued_logged s s [] w1), issued_refl. Qed.

Lemma issued_waited w1 :
  issued s (waited w1) [CKill t ctx sig None; CSleep timeout].
Proof. apply (issued_logged s _ [_]), issued_signalled. Qed.

Lemma issued_queried w1 st e w3 :
  issued s (queried w1 st e w3)
    [CKill t ctx sig None; CSleep timeout; CStatus t ctx st e].
Proof. apply (issued_logged s _ [_; _]), issued_waited. Qed.

End ShutdownPaths.

(** ** No method writes a field of the handle *)

Section Frames.

Context {R : Runtime}.

Lemma keeps_handle_ret {A : Type} (a : A) : keeps_handle (ret a).
Proof. intros s. reflexivity. Qed.

Lemma keeps_handle_panic {A : Type} msg : keeps_handle (@panic R A msg).
Proof. intros s. reflexivity. Qed.

Lemma keeps_handle_get_handle : keeps_handle get_handle.
Proof. intros s. reflexivity. Qed.

Lemma keeps_handle_call_world {A : Type} (f : World -> A * World) entry :
  keeps_handle (call_world f entry).
Proof. intros s. unfold call_world. destruct (f (world s)). reflexivity. Qed.

Lemma keeps_handle_bind {A B : Type} (m : M A) (k : A -> M B) :
  keeps_handle m -> (forall a, keeps_handle (k a)) -> keeps_handle (bind m k).
Proof.
  intros Hm Hk s. unfold bind. specialize (Hm s).
  destruct (m s) as [[a | msg] s1]; cbn [snd] in *.
  - now rewrite Hk.
  - exact Hm.
Qed.

Lemma keeps_handle_with_defer {A : Type} (d : M unit) (body : M A) :
  keeps_handle d -> keeps_handle body -> keeps_handle (with_defer d body).
Proof.
  intros Hd Hb s. unfold with_defer. specialize (Hb s).
  destruct (body s) as [o s1]. specialize (Hd s1).
  destruct (d s1) as [[u | msg] s2]; cbn [snd] in *; congruence.
Qed.

End Frames.

Create HintDb frame.
#[export] Hint Resolve keeps_handle_ret keeps_handle_panic keeps_handle_get_handle
  keeps_handle_call_world keeps_handle_bind keeps_handle_with_defer : frame.

Ltac frame :=
  repeat first
    [ progress intros
    | apply keeps_handle_bind
    | apply keeps_handle_with_defer
    | apply keeps_handle_call_world
    | apply keeps_handle_ret
    | apply keeps_handle_panic
    | apply keeps_handle_get_handle
    | match goal with
      | |- keeps_handle (match ?x with _ => _ end) => destruct x
      end ].

Section MethodFrames.

Context {R : Runtime}.

Lemma keeps_handle_task_Kill ctx sig : keeps_handle (task_Kill ctx sig).
Proof. unfold task_Kill. frame. Qed.

Lemma keeps_handle_TaskStatus : keeps_handle TaskStatus.
Proof.
  unfold TaskStatus, stateLock_RLock, stateLock_RUnlock, note, deref_taskConfig.
  frame.
Qed.

Lemma keeps_handle_IsRunning : keeps_handle IsRunning.
Proof. unfold IsRunning, stateLock_RLock, stateLock_RUnlock, note. frame. Qed.

Lemma keeps_handle_run ctx : keeps_handle (run ctx).
Proof.
  unfold run, stateLock_Lock, stateLock_Unlock, note, Sleep, task_Start. frame.
Qed.

Lemma keeps_handle_shutdown ctx timeout sig : keeps_handle (shutdown ctx timeout sig).
Proof.
  unfold shutdown, Sleep, task_Status, logger_Info, note. frame;
    apply keeps_handle_task_Kill.
Qed.

Lemma keeps_handle_cleanup ctx : keeps_handle (cleanup ctx).
Proof. unfold cleanup, task_Delete, container_Delete. frame. Qed.

Lemma keeps_handle_stats ctx interval : keeps_handle (stats ctx interval).
Proof. unfold stats. frame. Qed.

Lemma keeps_handle_signal ctx sig : keeps_handle (signal ctx sig).
Proof.
  unfold signal, assert_syscall_Signal. frame; apply keeps_handle_task_Kill.
Qed.

Lemma perform_keeps_handle o s : handle (perform o s) = handle s.
Proof.
  destruct o; cbn [perform].
  - apply keeps_handle_TaskStatus.
  - apply keeps_handle_IsRunning.
  - apply keeps_handle_run.
  - apply keeps_handle_shutdown.
  - apply keeps_handle_cleanup.
  - apply keeps_handle_stats.
  - apply keeps_handle_signal.
Qed.

Lemma reachable_keeps_handle s0 s : reachable s0 s -> handle s = handle s0.
Proof.
  induction 1 as [| s o _ IH].
  - reflexivity.
  - now rewrite perform_keeps_handle.
Qed.

(** The snapshot copies the three fields of the invariant. *)
Lemma TaskStatus_snapshot s ts :
  fst (TaskStatus s) = Returned ts ->
  TS_State ts = procState (handle s) /\
  TS_CompletedAt ts = completedAt (handle s) /\
  TS_ExitResult ts = exitResult (handle s).
Proof.
  unfold TaskStatus, stateLock_RLock, stateLock_RUnlock, note, deref_taskConfig,
    with_defer, bind, call_world, get_handle, ret, panic.
  cbn. destruct (taskConfig (handle s)); cbn; intros E.
  - injection E as <-. cbn. auto.
  - discriminate.
Qed.

End MethodFrames.

(** ** The ways through [run] and [cleanup] *)

Section RunCleanupPaths.

Context {R : Runtime}.
Variable ctx : context_Context.
Variable s : State.

Let t := task (handle s).
Let c := container (handle s).

Local Abbreviation rested := (rested s).

Lemma run_eq r w :
  Task_Start t ctx (world rested) = (r, w) ->
  run ctx s = (Returned tt, logged (logged rested w (CStart t ctx r)) w CUnlock).
Proof.
  intros E. unfold run, with_defer.
  erewrite bind_returned by apply stateLock_Lock_eq.
  erewrite bind_returned by apply Sleep_eq.
  erewrite bind_returned by (apply task_Start_eq; exact E).
  reflexivity.
Qed.

Lemma issued_run r w :
  issued s (logged (logged rested w (CStart t ctx r)) w CUnlock)
    [CLock; CSleep startup_grace; CStart t ctx r; CUnlock].
Proof.
  apply (issued_logged s _ [_; _; _]), (issued_logged s _ [_; _]),
    (issued_logged s _ [_]), (issued_logged s s []), issued_refl.
Qed.

Lemma cleanup_task_delete_failed es e w1 :
  Task_Delete t ctx (world s) = ((es, Some e), w1) ->
  cleanup ctx s = (Returned (Some e), logged s w1 (CTaskDelete t ctx es (Some e))).
Proof.
  intros D. unfold cleanup.
  erewrite bind_returned by (apply task_Delete_eq; exact D).
  reflexivity.
Qed.

Lemma cleanup_task_deleted es w1 r w2 :
  Task_Delete t ctx (world s) = ((es, None), w1) ->
  Container_Delete c ctx [WithSnapshotCleanup] w1 = (r, w2) ->
  cleanup ctx s
  = (Returned r,
     logged (logged s w1 (CTaskDelete t ctx es None)) w2
       (CContainerDelete c ctx [WithSnapshotCleanup] r)).
Proof.
  intros D D2. unfold cleanup.
  erewrite bind_returned by (apply task_Delete_eq; exact D).
  cbn [error_is_nil negb].
  erewrite bind_returned by (apply container_Delete_eq; exact D2).
  destruct r; reflexivity.
Qed.

End RunCleanupPaths.

(** ** The shutdown protocol *)

Section Shutdown.

Context {R : Runtime}.

(** C5.  If the initial signal delivery of [shutdown] fails, [shutdown]
    returns the error of that delivery as it is, and the failed delivery is
    the only call it makes: no wait, no status query, no second kill. *)
Theorem shutdown_initial_failure_aborts ctx timeout sig s e w1 :
  Task_Kill (task (handle s)) ctx sig (world s) = (Some e, w1) ->
  fst (shutdown ctx timeout sig s) = Returned (Some e) /\
  issued s (snd (shutdown ctx timeout sig s))
    [CKill (task (handle s)) ctx sig (Some e)].
Proof.
  intros K. rewrite (shutdown_signal_failed _ _ _ _ _ _ K). split.
  - reflexivity.
  - apply issued_signalled.
Qed.

(** C6.  If the initial delivery succeeds and the status query after the
    wait fails, [shutdown] returns the error of the query, and the query is
    its last call: the forceful kill is not delivered. *)
Theorem shutdown_status_failure_aborts ctx timeout sig s w1 st e w3 :
  Task_Kill (task (handle s)) ctx sig (world s) = (None, w1) ->
  Task_Status (task (handle s)) ctx (time_Sleep timeout w1) = ((st, Some e), w3) ->
  fst (shutdown ctx timeout sig s) = Returned (Some e) /\
  exists after,
    issued s (snd (shutdown ctx timeout sig s))
      (CKill (task (handle s)) ctx sig None :: after) /\
    after = [CSleep timeout; CStatus (task (handle s)) ctx st (Some e)] /\
    count_calls is_forceful_kill after = 0%nat.
Proof.
  intros K Q. rewrite (shutdown_status_failed _ _ _ _ _ _ _ _ K Q). split.
  - reflexivity.
  - eexists. split; [apply issued_queried | split; reflexivity].
Qed.

(** C1.  If the initial delivery and the status query after the wait both
    succeed, then: when the status is Running, [shutdown] follows the query
    with exactly one kill, of signal SIGKILL, and returns what that kill
    returns; when the status is anything else, [shutdown] returns nil and
    follows the query with no kill at all (only the log line). *)
Theorem shutdown_escalates_iff_running ctx timeout sig s w1 st w3 :
  Task_Kill (task (handle s)) ctx sig (world s) = (None, w1) ->
  Task_Status (task (handle s)) ctx (time_Sleep timeout w1) = ((st, None), w3) ->
  let t := task (handle s) in
  let r := fst (Task_Kill t ctx SIGKILL w3) in
  let s' := snd (shutdown ctx timeout sig s) in
  (Status_Status st = Running ->
   fst (shutdown ctx timeout sig s) = Returned r /\
   exists after,
     issued s s' (CKill t ctx sig None :: after) /\
     after = [CSleep timeout; CStatus t ctx st None; CKill t ctx SIGKILL r] /\
     count_calls is_forceful_kill after = 1%nat) /\
  (Status_Status st <> Running ->
   fst (shutdown ctx timeout sig s) = Returned None /\
   exists after,
     issued s s' (CKill t ctx sig None :: after) /\
     after = [CSleep timeout; CStatus t ctx st None;
              CLogInfo (logger (handle s))
                "Task is not running anymore, no need to SIGKILL"] /\
     count_calls is_forceful_kill after = 0%nat).
Proof.
  intros K Q t r s'. split; intros N.
  - destruct (Task_Kill t ctx SIGKILL w3) as [r' w4] eqn:K2.
    subst r s'. cbn [fst].
    rewrite (shutdown_escalated _ _ _ _ _ _ _ _ _ K Q N K2). split.
    + reflexivity.
    + eexists. split; [| split; reflexivity].
      apply (issued_logged s _ [_; _; _]), issued_queried.
  - subst s'. rewrite (shutdown_not_running _ _ _ _ _ _ _ K Q N). split.
    + reflexivity.
    + eexists. split; [| split; reflexivity].
      apply (issued_logged s _ [_; _; _]), issued_queried.
Qed.

(** Counting over the whole of [shutdown] instead: the initial delivery is
    itself a SIGKILL when the caller asks for that signal, and the escalation
    adds one to it. *)
Remark shutdown_forceful_kills_in_all ctx timeout sig s w1 st w3 l :
  Task_Kill (task (handle s)) ctx sig (world s) = (None, w1) ->
  Task_Status (task (handle s)) ctx (time_Sleep timeout w1) = ((st, None), w3) ->
  issued s (snd (shutdown ctx timeout sig s)) l ->
  count_calls is_forceful_kill l
  = ((if (sig =? SIGKILL)%Z then 1 else 0)
     + (if ProcessStatus_eqb (Status_Status st) Running then 1 else 0))%nat.
Proof.
  intros K Q I.
  destruct (ProcessStatus_eqb (Status_Status st) Running) eqn:E.
  - assert (N : Status_Status st = Running)
      by (destruct (Status_Status st); (reflexivity || discriminate)).
    destruct (Task_Kill (task (handle s)) ctx SIGKILL w3) as [r w4] eqn:K2.
    rewrite (shutdown_escalated _ _ _ _ _ _ _ _ _ K Q N K2) in I.
    pose proof (issued_logged s _ [_; _; _] w4
                  (CKill (task (handle s)) ctx SIGKILL r)
                  (issued_queried ctx timeout sig s w1 st None w3)) as I'.
    unfold issued in I, I'. cbn [snd] in I. rewrite I' in I.
    apply app_inv_head in I. subst l.
    unfold count_calls. cbn. destruct (sig =? SIGKILL)%Z; reflexivity.
  - assert (N : Status_Status st <> Running)
      by (intros N; rewrite N in E; discriminate).
    rewrite (shutdown_not_running _ _ _ _ _ _ _ K Q N) in I.
    pose proof (issued_logged s _ [_; _; _] w3
                  (CLogInfo (logger (handle s))
                     "Task is not running anymore, no need to SIGKILL")
                  (issued_queried ctx timeout sig s w1 st None w3)) as I'.
    unfold issued in I, I'. cbn [snd] in I. rewrite I' in I.
    apply app_inv_head in I. subst l.
    unfold count_calls. cbn. destruct (sig =? SIGKILL)%Z; reflexivity.
Qed.

End Shutdown.

(** *** Scenarios of the shutdown protocol on the scripted runtime *)

(** The runtime refuses the SIGTERM: [shutdown] stops there. *)
Lemma shutdown_initial_failure_aborts_witness :
  fst (shutdown (R := Fake.runtime) tt (5 * Second) SIGTERM
         (Fake.fresh Fake.kill_refused))
  = Returned (Some "no such process") /\
  issued (Fake.fresh Fake.kill_refused)
    (snd (shutdown (R := Fake.runtime) tt (5 * Second) SIGTERM
            (Fake.fresh Fake.kill_refused)))
    [CKill (R := Fake.runtime) "redis-task-1" tt SIGTERM (Some "no such process")].
Proof.
  eapply (shutdown_initial_failure_aborts (R := Fake.runtime)).
  reflexivity.
Defined.

(** The status query fails after the wait: no SIGKILL follows. *)
Lemma shutdown_status_failure_aborts_witness :
  fst (shutdown (R := Fake.runtime) tt (5 * Second) SIGTERM
         (Fake.fresh Fake.status_unavailable))
  = Returned (Some "ttrpc: closed") /\
  exists after,
    issued (Fake.fresh Fake.status_unavailable)
      (snd (shutdown (R := Fake.runtime) tt (5 * Second) SIGTERM
              (Fake.fresh Fake.status_unavailable)))
      (CKill (R := Fake.runtime) "redis-task-1" tt SIGTERM None :: after) /\
    after = [CSleep (5 * Second);
             CStatus (R := Fake.runtime) "redis-task-1" tt
               (mkStatus Unknown 0 0) (Some "ttrpc: closed")] /\
    count_calls is_forceful_kill after = 0%nat.
Proof.
  eapply (shutdown_status_failure_aborts (R := Fake.runtime)); reflexivity.
Defined.

(** A task that traps SIGTERM is still Running after five seconds and gets
    the SIGKILL; a task that exits on SIGTERM is Stopped and gets none. *)
Lemma shutdown_escalates_iff_running_witness :
  (fst (shutdown (R := Fake.runtime) tt (5 * Second) SIGTERM
          (Fake.fresh Fake.stubborn)) = Returned None /\
   exists after,
     issued (Fake.fresh Fake.stubborn)
       (snd (shutdown (R := Fake.runtime) tt (5 * Second) SIGTERM
               (Fake.fresh Fake.stubborn)))
       (CKill (R := Fake.runtime) "redis-task-1" tt SIGTERM None :: after) /\
     after = [CSleep (5 * Second);
              CStatus (R := Fake.runtime) "redis-task-1" tt
                (mkStatus Running 0 0) None;
              CKill (R := Fake.runtime) "redis-task-1" tt SIGKILL None] /\
     count_calls is_forceful_kill after = 1%nat) /\
  (fst (shutdown (R := Fake.runtime) tt (5 * Second) SIGTERM
          (Fake.fresh Fake.calm)) = Returned None /\
   exists after,
     issued (Fake.fresh Fake.calm)
       (snd (shutdown (R := Fake.runtime) tt (5 * Second) SIGTERM
               (Fake.fresh Fake.calm)))
       (CKill (R := Fake.runtime) "redis-task-1" tt SIGTERM None :: after) /\
     after = [CSleep (5 * Second);
              CStatus (R := Fake.runtime) "redis-task-1" tt
                (mkStatus Stopped 0 0) None;
              CLogInfo (R := Fake.runtime) tt
                "Task is not running anymore, no need to SIGKILL"] /\
     count_calls is_forceful_kill after = 0%nat).
Proof.
  split.
  - eapply (proj1 (shutdown_escalates_iff_running (R := Fake.runtime)
                     tt (5 * Second) SIGTERM (Fake.fresh Fake.stubborn)
                     _ _ _ eq_refl eq_refl)).
    reflexivity.
  - eapply (proj2 (shutdown_escalates_iff_running (R := Fake.runtime)
                     tt (5 * Second) SIGTERM (Fake.fresh Fake.calm)
                     _ _ _ eq_refl eq_refl)).
    discriminate.
Defined.

(** ** Tearing down: [cleanup] *)

Section Cleanup.

Context {R : Runtime}.

(** C2.  [cleanup] deletes the task first.  If that fails, it returns the
    error and the task deletion is its only call: the container is not
    touched.  If it succeeds, the container deletion (with snapshot cleanup)
    comes second and [cleanup] returns what it returns: its error when it
    fails, nil when it succeeds. *)
Theorem cleanup_task_then_container ctx s :
  let t := task (handle s) in
  let c := container (handle s) in
  (forall es e w1,
     Task_Delete t ctx (world s) = ((es, Some e), w1) ->
     fst (cleanup ctx s) = Returned (Some e) /\
     issued s (snd (cleanup ctx s)) [CTaskDelete t ctx es (Some e)]) /\
  (forall es w1 r w2,
     Task_Delete t ctx (world s) = ((es, None), w1) ->
     Container_Delete c ctx [WithSnapshotCleanup] w1 = (r, w2) ->
     fst (cleanup ctx s) = Returned r /\
     issued s (snd (cleanup ctx s))
       [CTaskDelete t ctx es None;
        CContainerDelete c ctx [WithSnapshotCleanup] r]).
Proof.
  intros t c. split.
  - intros es e w1 D. rewrite (cleanup_task_delete_failed _ _ _ _ _ D). split.
    + reflexivity.
    + apply (issued_logged s s []), issued_refl.
  - intros es w1 r w2 D D2.
    rewrite (cleanup_task_deleted _ _ _ _ _ _ D D2). split.
    + reflexivity.
    + apply (issued_logged s _ [_]), (issued_logged s s []), issued_refl.
Qed.

End Cleanup.

(** The three outcomes of [cleanup] on the scripted runtime: the task
    deletion is refused; the snapshot is busy; both deletions go through. *)
Lemma cleanup_task_then_container_witness :
  (fst (cleanup (R := Fake.runtime) tt (Fake.fresh Fake.task_delete_refused))
   = Returned (Some "task must be stopped before deletion") /\
   issued (Fake.fresh Fake.task_delete_refused)
     (snd (cleanup (R := Fake.runtime) tt (Fake.fresh Fake.task_delete_refused)))
     [CTaskDelete (R := Fake.runtime) "redis-task-1" tt None
        (Some "task must be stopped before deletion")]) /\
  (fst (cleanup (R := Fake.runtime) tt (Fake.fresh Fake.snapshot_busy))
   = Returned (Some "snapshot is busy") /\
   issued (Fake.fresh Fake.snapshot_busy)
     (snd (cleanup (R := Fake.runtime) tt (Fake.fresh Fake.snapshot_busy)))
     [CTaskDelete (R := Fake.runtime) "redis-task-1" tt
        (Some (mkExitStatus 0 (1000 * Second))) None;
      CContainerDelete (R := Fake.runtime) "redis-task-1" tt
        [WithSnapshotCleanup] (Some "snapshot is busy")]) /\
  (fst (cleanup (R := Fake.runtime) tt (Fake.fresh Fake.calm)) = Returned None /\
   issued (Fake.fresh Fake.calm)
     (snd (cleanup (R := Fake.runtime) tt (Fake.fresh Fake.calm)))
     [CTaskDelete (R := Fake.runtime) "redis-task-1" tt
        (Some (mkExitStatus 0 (1000 * Second))) None;
      CContainerDelete (R := Fake.runtime) "redis-task-1" tt
        [WithSnapshotCleanup] None]).
Proof.
  split; [| split].
  - eapply (proj1 (cleanup_task_then_container (R := Fake.runtime) tt
                     (Fake.fresh Fake.task_delete_refused))).
    reflexivity.
  - eapply (proj2 (cleanup_task_then_container (R := Fake.runtime) tt
                     (Fake.fresh Fake.snapshot_busy))); reflexivity.
  - eapply (proj2 (cleanup_task_then_container (R := Fake.runtime) tt
                     (Fake.fresh Fake.calm))); reflexivity.
Defined.

(** ** Forwarding a signal *)

Section Signal.

Context {R : Runtime}.

(** A signal that is a syscall.Signal is handed to the runtime as it is. *)
Lemma signal_forwards ctx sig n s :
  as_syscall_Signal sig = Some n ->
  signal ctx sig s = task_Kill ctx n s.
Proof.
  intros E. unfold signal, assert_syscall_Signal. rewrite E. reflexivity.
Qed.

(** C3, as the code has it.  For a signal value that is not a
    syscall.Signal, [signal] does not return at all: the type assertion
    panics.  The state is left as it was, so no call reached the runtime. *)
Theorem signal_unrepresentable_panics ctx sig s :
  as_syscall_Signal sig = None ->
  (exists msg, fst (signal ctx sig s) = Panicked msg) /\
  snd (signal ctx sig s) = s /\
  issued s (snd (signal ctx sig s)) [].
Proof.
  intros E. unfold signal, assert_syscall_Signal. rewrite E.
  cbn. split; [eexists; reflexivity | split; [reflexivity | apply issued_refl]].
Qed.

End Signal.

Lemma signal_unrepresentable_panics_witness :
  (exists msg,
     fst (signal (R := Fake.runtime) tt Fake.custom_signal (Fake.fresh Fake.calm))
     = Panicked msg) /\
  snd (signal (R := Fake.runtime) tt Fake.custom_signal (Fake.fresh Fake.calm))
  = Fake.fresh Fake.calm /\
  issued (Fake.fresh Fake.calm)
    (snd (signal (R := Fake.runtime) tt Fake.custom_signal (Fake.fresh Fake.calm)))
    [].
Proof.
  apply (signal_unrepresentable_panics (R := Fake.runtime)). reflexivity.
Defined.

(** C3, as stated, fails: a signal of another type is not representable,
    and [signal] returns no error value for it. *)
Lemma signal_unrepresentable_returns_no_error :
  as_syscall_Signal Fake.custom_signal = None /\
  ~ signal_rejects_with_error (R := Fake.runtime) tt Fake.custom_signal
      (Fake.fresh Fake.calm).
Proof.
  split.
  - reflexivity.
  - intros [[e E] _]. vm_compute in E. discriminate E.
Qed.

(** ** Starting the task: [run] *)

Section Run.

Context {R : Runtime}.

(** C4, as the code has it.  [run] has no result: it makes the start call
    once, after the delay and under the lock, and returns normally with the
    handle as it was, whatever the start call answered. *)
Theorem run_drops_start_answer ctx s :
  fst (run ctx s) = Returned tt /\
  handle (snd (run ctx s)) = handle s /\
  issued s (snd (run ctx s))
    [CLock; CSleep startup_grace;
     CStart (task (handle s)) ctx (start_answer ctx s); CUnlock].
Proof.
  unfold start_answer.
  destruct (Task_Start (task (handle s)) ctx (world (rested s))) as [r w] eqn:E.
  rewrite (run_eq ctx s r w E). split; [reflexivity | split].
  - reflexivity.
  - apply issued_run.
Qed.

(** C7.  On a clock that respects time.Sleep, [run] makes exactly one start
    call, and that call is issued at least the startup grace period (five
    seconds) after [run] was entered, and after the sleep was begun.  The
    call is the runtime's: it is put to the runtime in the world the lock
    wait and the sleep left, the answer in the journal is the runtime's
    answer, and [run] leaves the world as that call left it. *)
Theorem run_starts_once_after_grace {L : ClockLaws R} ctx s :
  exists t_lock t_sleep t_start t_unlock r w,
    Task_Start (task (handle s)) ctx
      (time_Sleep startup_grace (stateLock_wait (world s))) = (r, w) /\
    world (snd (run ctx s)) = w /\
    t_start = now (time_Sleep startup_grace (stateLock_wait (world s))) /\
    new_entries s (snd (run ctx s))
    = [(t_lock, CLock); (t_sleep, CSleep startup_grace);
       (t_start, CStart (task (handle s)) ctx r); (t_unlock, CUnlock)] /\
    startup_grace = 5000000000 /\
    now (world s) + startup_grace <= t_start /\
    t_sleep + startup_grace <= t_start /\
    count_calls is_start (map snd (new_entries s (snd (run ctx s)))) = 1%nat.
Proof.
  destruct (Task_Start (task (handle s)) ctx (world (rested s))) as [r w] eqn:E.
  rewrite (run_eq ctx s r w E). cbn [snd].
  assert (N : new_entries s
                (logged (logged (rested s) w (CStart (task (handle s)) ctx r))
                   w CUnlock)
              = [(now (world s), CLock);
                 (now (world (locked s)), CSleep startup_grace);
                 (now (world (rested s)), CStart (task (handle s)) ctx r);
                 (now w, CUnlock)]).
  { apply new_entries_app. cbn. now rewrite <- !app_assoc. }
  exists (now (world s)), (now (world (locked s))), (now (world (rested s))),
    (now w), r, w.
  rewrite N.
  split; [exact E | split; [reflexivity | split; [reflexivity |]]].
  split; [reflexivity | split; [reflexivity |]].
  assert (G : Z.max 0 startup_grace = startup_grace) by reflexivity.
  pose proof (stateLock_wait_monotone (world s)) as H1.
  pose proof (Sleep_elapses startup_grace (stateLock_wait (world s))) as H2.
  rewrite G in H2. cbn [rested locked logged world].
  split; [lia | split; [lia | reflexivity]].
Qed.

End Run.

(** The clock of the scripted runtime respects time.Sleep. *)
#[export] Instance Fake_clock_laws : ClockLaws Fake.runtime.
Proof.
  split; intros; cbn; lia.
Qed.

Lemma run_starts_once_after_grace_witness :
  exists t_lock t_sleep t_start t_unlock r w,
    Fake.start "redis-task-1" tt (Fake.sleep startup_grace Fake.start_refused)
    = (r, w) /\
    world (snd (run (R := Fake.runtime) tt (Fake.fresh Fake.start_refused))) = w /\
    t_start = 1000 * Second + startup_grace /\
    new_entries (Fake.fresh Fake.start_refused)
      (snd (run (R := Fake.runtime) tt (Fake.fresh Fake.start_refused)))
    = [(t_lock, CLock); (t_sleep, CSleep startup_grace);
       (t_start, CStart (R := Fake.runtime) "redis-task-1" tt r);
       (t_unlock, CUnlock)] /\
    startup_grace = 5000000000 /\
    1000 * Second + startup_grace <= t_start /\
    t_sleep + startup_grace <= t_start /\
    count_calls is_start
      (map snd (new_entries (Fake.fresh Fake.start_refused)
                  (snd (run (R := Fake.runtime) tt
                          (Fake.fresh Fake.start_refused)))))
    = 1%nat.
Proof.
  exact (run_starts_once_after_grace (R := Fake.runtime) (L := Fake_clock_laws)
           tt (Fake.fresh Fake.start_refused)).
Defined.

(** C4, as stated, fails: when the runtime refuses to start the task, the
    caller of [run] has the same in hand as when the start succeeds, so no
    reading of it gives the start error back. *)
Lemma run_start_error_not_surfaced :
  start_answer (R := Fake.runtime) tt (Fake.fresh Fake.start_refused)
  = Some "task already started" /\
  start_answer (R := Fake.runtime) tt (Fake.fresh Fake.calm) = None /\
  caller_view (R := Fake.runtime) tt (Fake.fresh Fake.start_refused)
  = caller_view (R := Fake.runtime) tt (Fake.fresh Fake.calm) /\
  ~ run_surfaces_start_error (R := Fake.runtime).
Proof.
  assert (V : caller_view (R := Fake.runtime) tt (Fake.fresh Fake.start_refused)
              = caller_view (R := Fake.runtime) tt (Fake.fresh Fake.calm))
    by reflexivity.
  repeat split; try reflexivity.
  intros [surface H].
  pose proof (H tt (Fake.fresh Fake.start_refused)) as H1.
  pose proof (H tt (Fake.fresh Fake.calm)) as H2.
  rewrite V, H2 in H1. discriminate H1.
Qed.

(** ** The status fields *)

Section StatusFields.

Context {R : Runtime}.

(** What [TaskStatus] returns is read off the handle alone. *)
Lemma TaskStatus_reads_handle s s' :
  handle s = handle s' -> fst (TaskStatus s) = fst (TaskStatus s').
Proof.
  intros E.
  unfold TaskStatus, stateLock_RLock, stateLock_RUnlock, note, deref_taskConfig,
    with_defer, bind, call_world, get_handle, ret, panic.
  cbn. rewrite E. destruct (taskConfig (handle s')); reflexivity.
Qed.

Lemma IsRunning_spec s :
  fst (IsRunning s) = Returned (TaskState_eqb (procState (handle s)) TaskStateRunning).
Proof. reflexivity. Qed.

(** C9.  [run] and [shutdown] leave every field of the handle as it was:
    identifiers, state, both timestamps, exit result, container name (and
    the two capabilities).  The snapshot [TaskStatus] gives afterwards is the
    one it gave before.  No other operation of the handle changes the state
    field either. *)
Theorem run_shutdown_keep_handle ctx timeout sig s :
  (handle (snd (run ctx s)) = handle s /\
   fst (TaskStatus (snd (run ctx s))) = fst (TaskStatus s)) /\
  (handle (snd (shutdown ctx timeout sig s)) = handle s /\
   fst (TaskStatus (snd (shutdown ctx timeout sig s))) = fst (TaskStatus s)) /\
  (forall o, procState (handle (perform o s)) = procState (handle s)).
Proof.
  pose proof (keeps_handle_run ctx s) as Hr.
  pose proof (keeps_handle_shutdown ctx timeout sig s) as Hs.
  repeat split; auto using TaskStatus_reads_handle.
  intros o. now rewrite perform_keeps_handle.
Qed.


(** C10.  [stats] returns the nil channel and the nil error, touches
    nothing, and the channel it returns never has a value to receive. *)
Theorem stats_is_a_stub ctx interval s :
  fst (stats ctx interval s) = Returned (chan_nil, None) /\
  snd (stats ctx interval s) = s /\
  (forall c e, fst (stats ctx interval s) = Returned (c, e) ->
     e = None /\ forall buffers, chan_poll buffers c = None).
Proof.
  split; [reflexivity | split; [reflexivity |]].
  intros c e E. cbn in E. injection E as <- <-. split; reflexivity.
Qed.

End StatusFields.



(** ** Reading the status: [TaskStatus] and [IsRunning] *)

Section Reading.

Context {R : Runtime}.

Lemma TaskStatus_eq s :
  TaskStatus s
  = (match taskConfig (handle s) with
     | Some cfg =>
         Returned
           {| TS_ID := TaskConfig_ID cfg;
              TS_Name := TaskConfig_Name cfg;
              TS_State := procState (handle s);
              TS_StartedAt := startedAt (handle s);
              TS_CompletedAt := completedAt (handle s);
              TS_ExitResult := exitResult (handle s);
              TS_DriverAttributes := [("containerName", containerName (handle s))] |}
     | None => Panicked "invalid memory address or nil pointer dereference"
     end,
     logged (logged s (stateLock_wait (world s)) CRLock)
       (stateLock_wait (world s)) CRUnlock).
Proof.
  unfold TaskStatus, stateLock_RLock, stateLock_RUnlock, note, deref_taskConfig,
    with_defer, bind, call_world, get_handle, ret, panic.
  cbn. destruct (taskConfig (handle s)); reflexivity.
Qed.

Lemma issued_read_lock_pair s w :
  issued s (logged (logged s w CRLock) w CRUnlock) [CRLock; CRUnlock].
Proof. apply (issued_logged s _ [_]), (issued_logged s s []), issued_refl. Qed.

(** [TaskStatus] on a configured handle returns the identifiers of the
    configuration and the status fields of the handle as they are; all it
    does besides is take and release the read lock: no runtime call. *)
Theorem TaskStatus_snapshots_the_handle s cfg :
  taskConfig (handle s) = Some cfg ->
  fst (TaskStatus s)
  = Returned
      {| TS_ID := TaskConfig_ID cfg;
         TS_Name := TaskConfig_Name cfg;
         TS_State := procState (handle s);
         TS_StartedAt := startedAt (handle s);
         TS_CompletedAt := completedAt (handle s);
         TS_ExitResult := exitResult (handle s);
         TS_DriverAttributes := [("containerName", containerName (handle s))] |} /\
  issued s (snd (TaskStatus s)) [CRLock; CRUnlock] /\
  world (snd (TaskStatus s)) = stateLock_wait (world s).
Proof.
  intros E. rewrite TaskStatus_eq, E. cbn [fst snd].
  split; [reflexivity | split; [apply issued_read_lock_pair | reflexivity]].
Qed.

(** [TaskStatus] on a handle whose configuration pointer is nil panics, and
    the deferred release of the read lock still happens. *)
Theorem TaskStatus_nil_config_panics_unlocked s :
  taskConfig (handle s) = None ->
  (exists msg, fst (TaskStatus s) = Panicked msg) /\
  issued s (snd (TaskStatus s)) [CRLock; CRUnlock].
Proof.
  intros E. rewrite TaskStatus_eq, E. cbn [fst snd].
  split; [eexists; reflexivity | apply issued_read_lock_pair].
Qed.

(** Whenever [TaskStatus] returns, the driver attributes hold the container
    name under the key containerName, and no other key. *)
Theorem TaskStatus_driver_attributes s ts :
  fst (TaskStatus s) = Returned ts ->
  lookup_attr "containerName" (TS_DriverAttributes ts)
  = Some (containerName (handle s)) /\
  (forall k, k <> "containerName" ->
     lookup_attr k (TS_DriverAttributes ts) = None).
Proof.
  rewrite TaskStatus_eq. cbn [fst].
  destruct (taskConfig (handle s)); [| discriminate].
  intros E. injection E as <-. cbn [TS_DriverAttributes]. split.
  - reflexivity.
  - intros k Hk. unfold lookup_attr. cbn [find fst].
    destruct (String.eqb_spec "containerName" k) as [E | _]; [| reflexivity].
    now elim Hk.
Qed.

(** [IsRunning] always returns, also on an unconfigured handle; it answers
    true exactly when the state field is Running, which is what the snapshot
    of [TaskStatus] shows, and it only takes and releases the read lock. *)
Theorem IsRunning_reads_state s :
  exists b,
    fst (IsRunning s) = Returned b /\
    (b = true <-> procState (handle s) = TaskStateRunning) /\
    (forall ts, fst (TaskStatus s) = Returned ts ->
       (b = true <-> TS_State ts = TaskStateRunning)) /\
    issued s (snd (IsRunning s)) [CRLock; CRUnlock] /\
    world (snd (IsRunning s)) = stateLock_wait (world s).
Proof.
  exists (TaskState_eqb (procState (handle s)) TaskStateRunning).
  assert (B : TaskState_eqb (procState (handle s)) TaskStateRunning = true
              <-> procState (handle s) = TaskStateRunning)
    by (destruct (procState (handle s)); cbn; split; congruence).
  split; [reflexivity | split; [exact B | split; [| split]]].
  - intros ts E. destruct (TaskStatus_snapshot s ts E) as (-> & _). exact B.
  - apply (issued_read_lock_pair s (stateLock_wait (world s))).
  - reflexivity.
Qed.

(** No sequence of operations of the handle changes what [IsRunning]
    answers: in particular [run] does not make it true, and a successful
    [shutdown] or [cleanup] does not make it false. *)
Theorem IsRunning_unchanged_by_operations s0 s :
  reachable s0 s ->
  fst (IsRunning s) = fst (IsRunning s0).
Proof.
  intros Hr. rewrite !IsRunning_spec.
  now rewrite (reachable_keeps_handle s0 s Hr).
Qed.

End Reading.

Lemma TaskStatus_snapshots_the_handle_witness :
  fst (TaskStatus (R := Fake.runtime) (Fake.fresh Fake.calm))
  = Returned
      {| TS_ID := "task-1";
         TS_Name := "redis";
         TS_State := TaskStateRunning;
         TS_StartedAt := 990 * Second;
         TS_CompletedAt := 0;
         TS_ExitResult := None;
         TS_DriverAttributes := [("containerName", "redis-task-1")] |} /\
  issued (Fake.fresh Fake.calm)
    (snd (TaskStatus (R := Fake.runtime) (Fake.fresh Fake.calm)))
    [CRLock; CRUnlock] /\
  world (snd (TaskStatus (R := Fake.runtime) (Fake.fresh Fake.calm))) = Fake.calm.
Proof.
  apply (TaskStatus_snapshots_the_handle (R := Fake.runtime)
           (Fake.fresh Fake.calm) (mkTaskConfig "task-1" "redis")).
  reflexivity.
Defined.

Lemma TaskStatus_nil_config_panics_unlocked_witness :
  (exists msg,
     fst (TaskStatus (R := Strict.runtime)
            (mkState (R := Strict.runtime) Strict.unconfigured Strict.busy []))
     = Panicked msg) /\
  issued (mkState (R := Strict.runtime) Strict.unconfigured Strict.busy [])
    (snd (TaskStatus (R := Strict.runtime)
            (mkState (R := Strict.runtime) Strict.unconfigured Strict.busy [])))
    [CRLock; CRUnlock].
Proof.
  apply (TaskStatus_nil_config_panics_unlocked (R := Strict.runtime)).
  reflexivity.
Defined.

Lemma TaskStatus_driver_attributes_witness :
  lookup_attr "containerName" [("containerName", "redis-task-1")]
  = Some "redis-task-1" /\
  lookup_attr "pid" [("containerName", "redis-task-1")] = None.
Proof.
  destruct (TaskStatus_driver_attributes (R := Fake.runtime)
              (Fake.fresh Fake.calm)
              {| TS_ID := "task-1";
                 TS_Name := "redis";
                 TS_State := TaskStateRunning;
                 TS_StartedAt := 990 * Second;
                 TS_CompletedAt := 0;
                 TS_ExitResult := None;
                 TS_DriverAttributes := [("containerName", "redis-task-1")] |}
              eq_refl) as [H1 H2].
  split; [exact H1 | apply H2; discriminate].
Defined.

(** After [run] with a runtime that starts the task, [IsRunning] on a
    handle created Pending is what it was. *)
Lemma IsRunning_unchanged_by_operations_witness :
  fst (IsRunning
         (perform (OpShutdown (R := Strict.runtime) tt (5 * Second) SIGTERM)
            (perform (OpRun (R := Strict.runtime) tt)
               (mkState (R := Strict.runtime) Strict.unconfigured Strict.busy []))))
  = fst (IsRunning
           (mkState (R := Strict.runtime) Strict.unconfigured Strict.busy [])).
Proof.
  apply (IsRunning_unchanged_by_operations (R := Strict.runtime)).
  repeat apply reach_step. apply reach_here.
Defined.

(** ** What every execution looks like *)

Ltac unfold_methods :=
  unfold perform, TaskStatus, IsRunning, run, shutdown, cleanup, stats, signal,
    assert_syscall_Signal, deref_taskConfig, logger_Info,
    task_Start, task_Kill, task_Status, task_Delete, container_Delete,
    stateLock_Lock, stateLock_Unlock, stateLock_RLock, stateLock_RUnlock,
    Sleep, note, with_defer, bind, call_world, get_handle, ret, panic.

Ltac split_answers :=
  repeat
    (cbn;
     match goal with
     | |- context [Task_Start ?t ?c ?w] =>
         destruct (Task_Start t c w) as [[? | ] ?]
     | |- context [Task_Kill ?t ?c ?g ?w] =>
         destruct (Task_Kill t c g w) as [[? | ] ?]
     | |- context [Task_Status ?t ?c ?w] =>
         destruct (Task_Status t c w) as [[? [? | ]] ?]
     | |- context [Task_Delete ?t ?c ?w] =>
         destruct (Task_Delete t c w) as [[? [? | ]] ?]
     | |- context [Container_Delete ?k ?c ?o ?w] =>
         destruct (Container_Delete k c o w) as [[? | ] ?]
     | |- context [taskConfig ?h] => destruct (taskConfig h)
     | |- context [as_syscall_Signal ?x] => destruct (as_syscall_Signal x)
     | |- context [Status_Status ?x] => destruct (Status_Status x)
     end);
  cbn.

Ltac read_journal :=
  unfold issued, calls; cbn [journal snd fst];
  rewrite ?map_app, <- ?app_assoc; cbn [map app snd];
  first [reflexivity | symmetry; apply app_nil_r].

Section Shapes.

Context {R : Runtime}.

(** Every operation of the handle, however it ends (by return or by panic),
    follows the lock protocol and ends holding no lock: it acquires the
    stateLock only when it holds none, releases only what it holds, and has
    released whatever it took by the time it ends ([run] its exclusive lock,
    [TaskStatus] and [IsRunning] their read lock). *)
Theorem operations_release_their_locks o s :
  exists l,
    issued s (perform o s) l /\
    lock_walk Unheld l = Some Unheld /\
    held write_lock_effect l = 0 /\
    held read_lock_effect l = 0.
Proof.
  destruct o; unfold_methods; cbn; split_answers;
    eexists;
    (split; [read_journal | split; [reflexivity | split; reflexivity]]).
Qed.

(** [shutdown], [cleanup], [stats] and [signal] never touch the stateLock. *)
Theorem unlocked_operations o s l :
  match o with
  | OpShutdown _ _ _ | OpCleanup _ | OpStats _ _ | OpSignal _ _ => True
  | _ => False
  end ->
  issued s (perform o s) l ->
  forallb (fun c => negb (is_lock_call c)) l = true.
Proof.
  intros Ho I.
  assert (exists l', issued s (perform o s) l' /\
                     forallb (fun c => negb (is_lock_call c)) l' = true)
    as (l' & I' & F).
  { destruct o; try contradiction; clear I Ho;
      unfold_methods; cbn; split_answers;
      eexists; (split; [read_journal | reflexivity]). }
  unfold issued in I, I'. rewrite I' in I. apply app_inv_head in I.
  now subst l.
Qed.

(** Every execution of [shutdown] begins with the delivery of the caller's
    signal, makes at most three further calls, at most two kills in all, and
    never starts or deletes anything. *)
Theorem shutdown_shape ctx timeout sig s :
  exists r rest,
    issued s (snd (shutdown ctx timeout sig s))
      (CKill (task (handle s)) ctx sig r :: rest) /\
    (List.length rest <= 3)%nat /\
    (count_calls is_kill (CKill (task (handle s)) ctx sig r :: rest) <= 2)%nat /\
    forallb (fun c => negb (is_start c || is_delete c)) rest = true.
Proof.
  unfold_methods; cbn; split_answers;
    do 2 eexists; (split; [read_journal |]);
    cbn; repeat split; lia.
Qed.

End Shapes.

(** [shutdown] on the scripted runtime takes no lock. *)
Lemma unlocked_operations_witness :
  forallb (fun c => negb (is_lock_call c))
    [CKill (R := Fake.runtime) "redis-task-1" tt SIGTERM None;
     CSleep (5 * Second);
     CStatus (R := Fake.runtime) "redis-task-1" tt (mkStatus Stopped 0 0) None;
     CLogInfo (R := Fake.runtime) tt
       "Task is not running anymore, no need to SIGKILL"]
  = true.
Proof.
  apply (unlocked_operations (R := Fake.runtime)
           (OpShutdown (R := Fake.runtime) tt (5 * Second) SIGTERM)
           (Fake.fresh Fake.calm)).
  - exact I.
  - reflexivity.
Defined.

Section MoreShapes.

Context {R : Runtime}.

(** Every execution of [cleanup] begins with the task deletion, makes at
    most one further call, and calls nothing but deletions: it never signals
    the task nor asks for its status first. *)
Theorem cleanup_shape ctx s :
  exists es r rest,
    issued s (snd (cleanup ctx s))
      (CTaskDelete (task (handle s)) ctx es r :: rest) /\
    (List.length rest <= 1)%nat /\
    forallb is_delete rest = true /\
    forallb (fun c => negb (is_kill c)) rest = true.
Proof.
  unfold_methods; cbn; split_answers;
    do 3 eexists; (split; [read_journal |]);
    cbn; repeat split; lia.
Qed.

(** A signal that is a syscall.Signal is delivered by exactly one kill of
    that signal, and [signal] returns what the kill answers, error or nil:
    no wait, no status query, no escalation. *)
Theorem signal_forwards_once ctx sig n s r w :
  as_syscall_Signal sig = Some n ->
  Task_Kill (task (handle s)) ctx n (world s) = (r, w) ->
  fst (signal ctx sig s) = Returned r /\
  issued s (snd (signal ctx sig s)) [CKill (task (handle s)) ctx n r] /\
  world (snd (signal ctx sig s)) = w.
Proof.
  intros E K. rewrite (signal_forwards ctx sig n s E), (task_Kill_eq _ _ _ _ _ K).
  split; [reflexivity | split; [| reflexivity]].
  apply (issued_logged s s []), issued_refl.
Qed.

(** [shutdown] returns nil in two cases only: the delivery and the status
    query both succeeded and either the task was no longer Running, or the
    SIGKILL that followed succeeded. *)
Theorem shutdown_nil_iff ctx timeout sig s e1 w1 st e2 w3 r w4 :
  Task_Kill (task (handle s)) ctx sig (world s) = (e1, w1) ->
  Task_Status (task (handle s)) ctx (time_Sleep timeout w1) = ((st, e2), w3) ->
  Task_Kill (task (handle s)) ctx SIGKILL w3 = (r, w4) ->
  fst (shutdown ctx timeout sig s) = Returned None <->
  e1 = None /\ e2 = None /\ (Status_Status st <> Running \/ r = None).
Proof.
  intros K Q K2.
  destruct e1 as [e1 |].
  { rewrite (shutdown_signal_failed _ _ _ _ _ _ K). cbn [fst].
    split; [discriminate | intros (E & _); discriminate E]. }
  destruct e2 as [e2 |].
  { rewrite (shutdown_status_failed _ _ _ _ _ _ _ _ K Q). cbn [fst].
    split; [discriminate | intros (_ & E & _); discriminate E]. }
  destruct (ProcessStatus_eqb (Status_Status st) Running) eqn:B.
  - assert (N : Status_Status st = Running)
      by (destruct (Status_Status st); (reflexivity || discriminate)).
    rewrite (shutdown_escalated _ _ _ _ _ _ _ _ _ K Q N K2). cbn [fst]. split.
    + intros E. injection E as ->. auto.
    + intros (_ & _ & [H | ->]); [contradiction | reflexivity].
  - assert (N : Status_Status st <> Running)
      by (intros N; rewrite N in B; discriminate).
    rewrite (shutdown_not_running _ _ _ _ _ _ _ K Q N). cbn [fst].
    split; auto.
Qed.

(** A retry of [cleanup] starts over with the task deletion.  So when the
    first attempt deleted the task and failed on the container, and the
    runtime answers the second task deletion with an error, the retry
    returns that error and does not reach the container deletion again. *)
Theorem cleanup_retry_repeats_task_deletion ctx s es w1 e w2 es' e' w3 :
  Task_Delete (task (handle s)) ctx (world s) = ((es, None), w1) ->
  Container_Delete (container (handle s)) ctx [WithSnapshotCleanup] w1
  = (Some e, w2) ->
  Task_Delete (task (handle s)) ctx w2 = ((es', Some e'), w3) ->
  fst (cleanup ctx s) = Returned (Some e) /\
  fst (cleanup ctx (snd (cleanup ctx s))) = Returned (Some e') /\
  issued s (snd (cleanup ctx (snd (cleanup ctx s))))
    [CTaskDelete (task (handle s)) ctx es None;
     CContainerDelete (container (handle s)) ctx [WithSnapshotCleanup] (Some e);
     CTaskDelete (task (handle s)) ctx es' (Some e')].
Proof.
  intros D D2 D3.
  rewrite (cleanup_task_deleted _ _ _ _ _ _ D D2). cbn [fst snd].
  split; [reflexivity |].
  set (s1 := logged (logged s w1 (CTaskDelete (task (handle s)) ctx es None)) w2
               (CContainerDelete (container (handle s)) ctx
                  [WithSnapshotCleanup] (Some e))).
  assert (D3' : Task_Delete (task (handle s1)) ctx (world s1) = ((es', Some e'), w3))
    by exact D3.
  rewrite (cleanup_task_delete_failed ctx s1 es' e' w3 D3'). cbn [fst snd].
  split; [reflexivity |].
  apply (issued_logged s _ [_; _]), (issued_logged s _ [_]),
    (issued_logged s s []), issued_refl.
Qed.

End MoreShapes.

Lemma signal_forwards_once_witness :
  fst (signal (R := Fake.runtime) tt (os_Signal_syscall SIGINT)
         (Fake.fresh Fake.stubborn)) = Returned None /\
  issued (Fake.fresh Fake.stubborn)
    (snd (signal (R := Fake.runtime) tt (os_Signal_syscall SIGINT)
            (Fake.fresh Fake.stubborn)))
    [CKill (R := Fake.runtime) "redis-task-1" tt SIGINT None] /\
  world (snd (signal (R := Fake.runtime) tt (os_Signal_syscall SIGINT)
                (Fake.fresh Fake.stubborn)))
  = Fake.tick (Fake.stubborn).
Proof.
  apply (signal_forwards_once (R := Fake.runtime) tt (os_Signal_syscall SIGINT)
           SIGINT (Fake.fresh Fake.stubborn)); reflexivity.
Defined.

(** On the scripted runtime a trapped SIGTERM ends in a successful SIGKILL. *)
Lemma shutdown_nil_iff_witness :
  fst (shutdown (R := Fake.runtime) tt (5 * Second) SIGTERM
         (Fake.fresh Fake.stubborn)) = Returned None <->
  @None string = None /\ @None string = None /\
  (Status_Status (mkStatus Running 0 0) <> Running \/ @None string = None).
Proof.
  eapply (shutdown_nil_iff (R := Fake.runtime) tt (5 * Second) SIGTERM
            (Fake.fresh Fake.stubborn)); reflexivity.
Defined.

(** The runtime that forgets: the snapshot is busy, so the first [cleanup]
    deletes the task only; the second finds no task and stops there. *)
Lemma cleanup_retry_repeats_task_deletion_witness :
  fst (cleanup (R := Strict.runtime) tt
         (mkState (R := Strict.runtime) Strict.redis Strict.busy []))
  = Returned (Some "snapshot is busy") /\
  fst (cleanup (R := Strict.runtime) tt
         (snd (cleanup (R := Strict.runtime) tt
                 (mkState (R := Strict.runtime) Strict.redis Strict.busy []))))
  = Returned (Some "task not found") /\
  issued (mkState (R := Strict.runtime) Strict.redis Strict.busy [])
    (snd (cleanup (R := Strict.runtime) tt
            (snd (cleanup (R := Strict.runtime) tt
                    (mkState (R := Strict.runtime) Strict.redis Strict.busy [])))))
    [CTaskDelete (R := Strict.runtime) "redis-task-1" tt
       (Some (mkExitStatus 0 (1000 * Second))) None;
     CContainerDelete (R := Strict.runtime) "redis-task-1" tt
       [WithSnapshotCleanup] (Some "snapshot is busy");
     CTaskDelete (R := Strict.runtime) "redis-task-1" tt None
       (Some "task not found")].
Proof.
  eapply (cleanup_retry_repeats_task_deletion (R := Strict.runtime) tt
            (mkState (R := Strict.runtime) Strict.redis Strict.busy []));
    reflexivity.
Defined.

(** ** Time *)

Section Timing.

Context {R : Runtime} {L : ClockLaws R} {Mo : MonotoneRuntime R}.

(** When [shutdown] escalates, the SIGKILL is issued no earlier than the
    timeout after the caller's signal was issued, and the status query that
    decides it no earlier than the timeout after the wait began. *)
Theorem shutdown_kills_after_timeout ctx timeout sig s w1 st w3 :
  Task_Kill (task (handle s)) ctx sig (world s) = (None, w1) ->
  Task_Status (task (handle s)) ctx (time_Sleep timeout w1) = ((st, None), w3) ->
  Status_Status st = Running ->
  exists t_signal t_sleep t_status t_kill r,
    new_entries s (snd (shutdown ctx timeout sig s))
    = [(t_signal, CKill (task (handle s)) ctx sig None);
       (t_sleep, CSleep timeout);
       (t_status, CStatus (task (handle s)) ctx st None);
       (t_kill, CKill (task (handle s)) ctx SIGKILL r)] /\
    t_sleep + timeout <= t_status /\
    t_signal + timeout <= t_kill.
Proof.
  intros K Q N.
  destruct (Task_Kill (task (handle s)) ctx SIGKILL w3) as [r w4] eqn:K2.
  rewrite (shutdown_escalated _ _ _ _ _ _ _ _ _ K Q N K2). cbn [snd].
  exists (now (world s)), (now w1), (now (time_Sleep timeout w1)), (now w3), r.
  split.
  - apply new_entries_app. cbn. now rewrite <- !app_assoc.
  - pose proof (Task_Kill_clock (task (handle s)) ctx sig (world s)) as H1.
    rewrite K in H1. cbn [snd] in H1.
    pose proof (Sleep_elapses timeout w1) as H2.
    pose proof (Task_Status_clock (task (handle s)) ctx (time_Sleep timeout w1)) as H3.
    rewrite Q in H3. cbn [snd] in H3.
    split; lia.
Qed.

(** [run] keeps the exclusive lock for the whole startup grace period: the
    lock is released no earlier than five seconds after it was granted. *)
Theorem run_holds_lock_for_grace ctx s :
  exists t_lock t_granted t_start t_unlock r,
    new_entries s (snd (run ctx s))
    = [(t_lock, CLock); (t_granted, CSleep startup_grace);
       (t_start, CStart (task (handle s)) ctx r); (t_unlock, CUnlock)] /\
    t_granted = now (stateLock_wait (world s)) /\
    t_granted + 5 * Second <= t_unlock.
Proof.
  destruct (Task_Start (task (handle s)) ctx (world (rested s))) as [r w] eqn:E.
  rewrite (run_eq ctx s r w E). cbn [snd].
  exists (now (world s)), (now (world (locked s))), (now (world (rested s))),
    (now w), r.
  split; [| split; [reflexivity |]].
  - apply new_entries_app. cbn. now rewrite <- !app_assoc.
  - pose proof (Sleep_elapses startup_grace (stateLock_wait (world s))) as H2.
    pose proof (Task_Start_clock (task (handle s)) ctx (world (rested s))) as H3.
    rewrite E in H3. cbn [snd] in H3.
    change (Z.max 0 startup_grace) with (5 * Second) in H2.
    cbn [rested locked logged world] in *. lia.
Qed.

End Timing.

(** The calls of the scripted runtime take a millisecond each. *)
#[export] Instance Fake_monotone : MonotoneRuntime Fake.runtime.
Proof.
  split; intros; cbn.
  - unfold Fake.start. destruct (Fake.start_err w); cbn; unfold Millisecond; lia.
  - unfold Fake.kill, Fake.pop_kill_err.
    destruct (hd None (Fake.kill_errs w)); [cbn; unfold Millisecond; lia |].
    destruct ((sig =? SIGKILL) || negb _)%bool; cbn; unfold Millisecond; lia.
  - unfold Fake.status. destruct (Fake.status_err w); cbn; unfold Millisecond; lia.
Qed.

Lemma shutdown_kills_after_timeout_witness :
  exists t_signal t_sleep t_status t_kill r,
    new_entries (Fake.fresh Fake.stubborn)
      (snd (shutdown (R := Fake.runtime) tt (5 * Second) SIGTERM
              (Fake.fresh Fake.stubborn)))
    = [(t_signal, CKill (R := Fake.runtime) "redis-task-1" tt SIGTERM None);
       (t_sleep, CSleep (5 * Second));
       (t_status, CStatus (R := Fake.runtime) "redis-task-1" tt
                    (mkStatus Running 0 0) None);
       (t_kill, CKill (R := Fake.runtime) "redis-task-1" tt SIGKILL r)] /\
    t_sleep + 5 * Second <= t_status /\
    t_signal + 5 * Second <= t_kill.
Proof.
  eapply (shutdown_kills_after_timeout (R := Fake.runtime) (L := Fake_clock_laws)
            (Mo := Fake_monotone) tt (5 * Second) SIGTERM (Fake.fresh Fake.stubborn));
    reflexivity.
Defined.

Lemma run_holds_lock_for_grace_witness :
  exists t_lock t_granted t_start t_unlock r,
    new_entries (Fake.fresh Fake.calm)
      (snd (run (R := Fake.runtime) tt (Fake.fresh Fake.calm)))
    = [(t_lock, CLock); (t_granted, CSleep startup_grace);
       (t_start, CStart (R := Fake.runtime) "redis-task-1" tt r);
       (t_unlock, CUnlock)] /\
    t_granted = 1000 * Second /\
    t_granted + 5 * Second <= t_unlock.
Proof.
  exact (run_holds_lock_for_grace (R := Fake.runtime) (L := Fake_clock_laws)
           (Mo := Fake_monotone) tt (Fake.fresh Fake.calm)).
Defined.

(** A caller that asks [shutdown] for SIGKILL itself, on a task that dies of
    it: one forceful kill in all, the initial delivery. *)
Lemma shutdown_forceful_kills_in_all_witness :
  count_calls is_forceful_kill
    [CKill (R := Fake.runtime) "redis-task-1" tt SIGKILL None;
     CSleep (5 * Second);
     CStatus (R := Fake.runtime) "redis-task-1" tt (mkStatus Stopped 0 0) None;
     CLogInfo (R := Fake.runtime) tt
       "Task is not running anymore, no need to SIGKILL"]
  = ((if (SIGKILL =? SIGKILL)%Z then 1 else 0)
     + (if ProcessStatus_eqb (Status_Status (mkStatus Stopped 0%Z 0%Z)) Running
        then 1 else 0))%nat.
Proof.
  eapply (shutdown_forceful_kills_in_all (R := Fake.runtime) tt (5 * Second)
            SIGKILL (Fake.fresh Fake.calm)); reflexivity.
Defined.
